(** * Caffe2 CI build definitions

    A shallow embedding of [.circleci/cimodel/caffe2_build_definitions.py]:
    the static configuration tree, the expansion of the tree into
    configuration records, the job name and job definition computed from a
    record, the job mapping and the workflow list.

    Python strings are [string], lists are [list], [OrderedDict] is an
    insertion-ordered association list, and the mutable [jobs_dict] that
    [add_caffe2_builds] fills in is a [gmap string _] threaded through the
    loop. *)

From Stdlib Require Import Ascii String.
From stdpp Require Import gmap strings list pretty.

Set Default Proof Using "Type".

(** ** Python primitives used by the module *)

Module Py.

(** [a == b] on [str]. *)
Definition str_eq (a b : string) : bool := String.eqb a b.

(** [s in l] for a list of [str]. *)
Definition str_in (s : string) (l : list string) : bool :=
  existsb (str_eq s) l.

(** [sep.join(parts)]. *)
Definition join (sep : string) (parts : list string) : string :=
  String.concat sep parts.

(** [s.replace(old, new)] where [old] and [new] are one character long:
    every occurrence of the character is substituted. *)
Fixpoint replace (old new : ascii) (s : string) : string :=
  match s with
  | EmptyString => EmptyString
  | String a s' =>
      String (if Ascii.eqb a old then new else a) (replace old new s')
  end.

(** Insertion-ordered dictionaries with [str] keys. *)
Definition odict (V : Type) : Type := list (string * V).

(** [d[k] = v]: an existing key keeps its position and takes the new
    value, a new key goes to the end. *)
Fixpoint od_set {V} (k : string) (v : V) (d : odict V) : odict V :=
  match d with
  | [] => [(k, v)]
  | (k', v') :: d' =>
      if str_eq k' k then (k, v) :: d' else (k', v') :: od_set k v d'
  end.

(** [d.get(k)]. *)
Fixpoint od_get {V} (k : string) (d : odict V) : option V :=
  match d with
  | [] => None
  | (k', v') :: d' => if str_eq k' k then Some v' else od_get k d'
  end.

(** [list(d.keys())]. *)
Definition od_keys {V} (d : odict V) : list string := d.*1.

(** [OrderedDict(tuples)]. *)
Definition OrderedDict {V} (tuples : list (string * V)) : odict V :=
  foldl (fun d kv => od_set kv.1 kv.2 d) [] tuples.

End Py.

Import Py.

(** ** Collaborators imported by the module *)

(** Modelled from the spec: [cimodel.conf_tree.Ver] is not part of the
    sources at hand.  The spec describes a versioned component as a name
    plus an optional version string whose printable form is name+version,
    or the name alone. *)
Record Ver : Type := mkVer { name : string; version : option string }.

Definition Ver1 (n : string) : Ver := mkVer n None.
Definition Ver2 (n v : string) : Ver := mkVer n (Some v).

(** [str(v)]. *)
Definition Ver_str (v : Ver) : string :=
  match version v with
  | Some ver => name v +:+ ver
  | None => name v
  end.

(** Modelled from the spec: [cimodel.dimensions.PHASES] is not part of the
    sources at hand.  The spec fixes the phases to "build" and "test", in
    this order. *)
Definition PHASES : list string := ["build"; "test"].

(** The double quote character. *)
Definition dquote : string := String "034"%char EmptyString.

(** Modelled from the spec: [cimodel.miniutils.quote] is not part of the
    sources at hand.  The spec calls it a string-quoting helper: it wraps
    its argument in double quotes. *)
Definition quote (s : string) : string := dquote +:+ s +:+ dquote.

(** ** Module constants *)

Definition DOCKER_IMAGE_PATH_BASE : string :=
  "308535385114.dkr.ecr.us-east-1.amazonaws.com/caffe2/".

Definition DOCKER_IMAGE_VERSION : N := 248.

Definition CONFIG_HIERARCHY : list (Ver * list (Ver * list string)) :=
  [ (Ver2 "ubuntu" "14.04",
      [ (Ver2 "gcc" "4.8", ["py2"]);
        (Ver2 "gcc" "4.9", ["py2"]) ]);
    (Ver2 "ubuntu" "16.04",
      [ (Ver2 "cuda" "8.0", ["py2"]);
        (Ver2 "cuda" "9.0", ["py2"; "cmake"]);
        (Ver2 "cuda" "9.1", ["py2"]);
        (Ver1 "mkl", ["py2"]);
        (Ver2 "gcc" "5", ["onnx_py2"]);
        (Ver2 "clang" "3.8", ["py2"]);
        (Ver2 "clang" "3.9", ["py2"]);
        (Ver2 "clang" "7", ["py2"]);
        (Ver1 "android", ["py2"]) ]);
    (Ver2 "centos" "7",
      [ (Ver2 "cuda" "9.0", ["py2"]) ]);
    (Ver2 "macos" "10.13",
      [ (Ver1 "ios", ["py2"]);
        (Ver1 "system", ["py2"]) ]) ].

(** ** The configuration record *)

Record Conf : Type := mkConf {
  language : string;
  distro : Ver;
  compiler : Ver;
  phase : string
}.

Global Instance Ver_eq_dec : EqDecision Ver.
Proof. solve_decision. Defined.

Global Instance Conf_eq_dec : EqDecision Conf.
Proof. solve_decision. Defined.

Definition get_platform (c : Conf) : string :=
  if str_eq (name (distro c)) "macos" then "macos" else "linux".

Definition is_build_only (c : Conf) : bool :=
  str_in (Ver_str (compiler c))
    ["gcc4.9"; "clang3.8"; "clang3.9"; "clang7"; "android"]
  || str_eq (get_platform c) "macos".

(** The local [omit] of [get_cudnn_insertion]. *)
Definition cudnn_omit (c : Conf) : bool :=
  str_eq (language c) "onnx_py2"
  || str_in (name (compiler c)) ["android"; "mkl"; "clang"]
  || str_in (Ver_str (distro c)) ["ubuntu14.04"; "macos10.13"].

Definition get_cudnn_insertion (c : Conf) : list string :=
  if cudnn_omit c then [] else ["cudnn7"].

Definition get_build_name_middle_parts (c : Conf) : list string :=
  [Ver_str (compiler c)] ++ get_cudnn_insertion c ++ [Ver_str (distro c)].

Definition get_build_name_root_parts (c : Conf) : list string :=
  ["caffe2"; language c] ++ get_build_name_middle_parts c.

Definition construct_phase_name (c : Conf) (phase : string) : string :=
  let root_parts := get_build_name_root_parts c in
  replace "." "_" (join "_" (root_parts ++ [phase])).

Definition get_name (c : Conf) : string :=
  construct_phase_name c (phase c).

(** A value stored in a job definition: a string or a nested mapping. *)
Inductive yaml : Type :=
  | YStr (s : string)
  | YDict (d : odict string).

(** An entry of the workflow list: a bare job name, or the one-key
    mapping [{job: {"requires": names}}]. *)
Inductive workflow_item : Type :=
  | WName (job : string)
  | WRequires (job : string) (requires : list string).

Definition gen_build_list : list Conf :=
  '(distro, d1) ← CONFIG_HIERARCHY;
  '(compiler_name, build_languages) ← d1;
  language ← build_languages;
  phase ← PHASES;
  let c := mkConf language distro compiler_name phase in
  if str_eq phase "build" || negb (is_build_only c) then [c] else [].

Section WithOverride.

(** [cimodel.miniutils.override(word, substitutions)] is not part of the
    sources at hand and the spec does not describe it: it is a parameter
    of everything that calls it. *)
Variable override : string → list (string * string) → string.

Definition gen_docker_image (c : Conf) : string :=
  let lang_substitutions := [("onnx_py2", "py2"); ("cmake", "py2")] in
  let lang := override (language c) lang_substitutions in
  let parts := [lang] ++ get_build_name_middle_parts c in
  quote (DOCKER_IMAGE_PATH_BASE +:+ join "-" parts +:+ ":"
         +:+ pretty DOCKER_IMAGE_VERSION).

(** [tuples.append(x)] and [d[k] = v] rebind the variable they update. *)
Definition gen_yaml_tree (c : Conf) : odict yaml :=
  let tuples := [] in
  let lang_substitutions := [("onnx_py2", "onnx-py2")] in
  let lang := override (language c) lang_substitutions in
  let parts :=
    ["caffe2"; lang] ++ get_build_name_middle_parts c ++ [phase c] in
  let build_env := join "-" parts in
  let build_env :=
    if negb (str_eq (name (distro c)) "macos")
    then quote build_env else build_env in
  let tuples := tuples ++ [("BUILD_ENVIRONMENT", build_env)] in
  let tuples :=
    if str_eq (name (compiler c)) "ios"
    then tuples ++ [("BUILD_IOS", quote "1")] else tuples in
  let tuples :=
    if str_eq (phase c) "test" then
      let use_cuda_docker := str_eq (name (compiler c)) "cuda" in
      if use_cuda_docker
      then tuples ++ [("USE_CUDA_DOCKER_RUNTIME", quote "1")] else tuples
    else tuples in
  let tuples :=
    if negb (str_eq (name (distro c)) "macos")
    then tuples ++ [("DOCKER_IMAGE", gen_docker_image c)] else tuples in
  let tuples :=
    if is_build_only c then
      if negb (str_eq (name (distro c)) "macos")
      then tuples ++ [("BUILD_ONLY", quote "1")] else tuples
    else tuples in
  let tuples :=
    if str_eq (name (distro c)) "macos"
    then (tuples ++ [("PYTHON_INSTALLATION", quote "system")])
           ++ [("PYTHON_VERSION", quote "2")]
    else tuples in
  let env_dict := OrderedDict tuples in
  let d := OrderedDict [("environment", YDict env_dict)] in
  let d :=
    if str_eq (phase c) "test" then
      let is_large := negb (str_eq (name (compiler c)) "cuda") in
      let resource_class := if is_large then "large" else "gpu.medium" in
      od_set "resource_class" (YStr resource_class) d
    else d in
  let d :=
    od_set "<<"
      (YStr ("*" +:+ join "_"
                       ["caffe2"; get_platform c; phase c; "defaults"]))
      d in
  d.

(** [jobs_dict] is updated in place by the source; here the updated
    mapping is returned. *)
Definition add_caffe2_builds (jobs_dict : gmap string (odict yaml))
  : gmap string (odict yaml) :=
  let configs := gen_build_list in
  foldl
    (fun jobs_dict conf_options =>
       <[get_name conf_options := gen_yaml_tree conf_options]> jobs_dict)
    jobs_dict configs.

(** The string [gen_yaml_tree] assembles for BUILD_ENVIRONMENT, before
    quoting. *)
Definition build_env_string (c : Conf) : string :=
  join "-"
    (["caffe2"; override (language c) [("onnx_py2", "onnx-py2")]]
     ++ get_build_name_middle_parts c ++ [phase c]).

(** The environment mapping stored in the job definition. *)
Definition env_dict (c : Conf) : odict string :=
  match od_get "environment" (gen_yaml_tree c) with
  | Some (YDict env) => env
  | _ => []
  end.

End WithOverride.

(** One implementation of the [override] parameter, used to run the
    definitions on concrete records: the substitution of the word when
    the table has one, the word itself otherwise. *)
Definition override_lookup (word : string)
    (substitutions : list (string * string)) : string :=
  default word (od_get word substitutions).

(** The records that survive the filter of [get_caffe2_workflows]. *)
Definition filtered_configs : list Conf :=
  let configs := gen_build_list in
  List.filter
    (fun x => negb (str_eq (Ver_str (distro x)) "ubuntu14.04"
                    && str_eq (Ver_str (compiler x)) "gcc4.9"))
    configs.

Definition get_caffe2_workflows : list workflow_item :=
  (fun conf_options =>
     let item := WName (get_name conf_options) in
     let item :=
       if str_eq (phase conf_options) "test"
       then WRequires (get_name conf_options)
              [construct_phase_name conf_options "build"]
       else item in
     item) <$> filtered_configs.

(** ** Notions used to state the properties *)

(** A (distribution, compiler, language) triple of the static tree. *)
Definition in_tree (d comp : Ver) (lang : string) : Prop :=
  ∃ d1 langs,
    (d, d1) ∈ CONFIG_HIERARCHY ∧ (comp, langs) ∈ d1 ∧ lang ∈ langs.

(** The job an entry of the workflow list stands for. *)
Definition item_job (w : workflow_item) : string :=
  match w with
  | WName job => job
  | WRequires job _ => job
  end.

(** The combination named by the filter of [get_caffe2_workflows]. *)
Definition legacy_pair (c : Conf) : Prop :=
  Ver_str (distro c) = "ubuntu14.04" ∧ Ver_str (compiler c) = "gcc4.9".

Global Instance legacy_pair_dec (c : Conf) : Decision (legacy_pair c).
Proof. unfold legacy_pair. apply _. Defined.

(** The one record of the expansion with that combination. *)
Definition legacy_record : Conf :=
  mkConf "py2" (Ver2 "ubuntu" "14.04") (Ver2 "gcc" "4.9") "build".

(** The jobs an entry of the workflow list requires. *)
Definition item_requires (w : workflow_item) : list string :=
  match w with
  | WName _ => []
  | WRequires _ requires => requires
  end.


(** The part of a job name that [construct_phase_name] builds from the
    root parts alone. *)
Definition name_root (c : Conf) : string :=
  replace "." "_" (join "_" (get_build_name_root_parts c)).

(** The test sibling of a record: same language, distribution and
    compiler, phase "test". *)
Definition test_sibling (c : Conf) : Conf :=
  mkConf (language c) (distro c) (compiler c) "test".

(** Checks that every requiring entry of a workflow list comes directly
    after the bare entry of the one job it requires; [prev] is the entry
    before the list. *)
Fixpoint follows_required (prev : option workflow_item)
    (l : list workflow_item) : bool :=
  match l with
  | [] => true
  | w :: l' =>
      match w with
      | WName _ => true
      | WRequires _ requires =>
          match prev, requires with
          | Some (WName b), [r] => str_eq r b
          | _, _ => false
          end
      end
      && follows_required (Some w) l'
  end.

(** ** Facts about the Python primitives *)

Lemma str_eq_true (a b : string) : str_eq a b = true ↔ a = b.
Proof. apply String.eqb_eq. Qed.

Lemma str_eq_false (a b : string) : str_eq a b = false ↔ a ≠ b.
Proof. apply String.eqb_neq. Qed.

Lemma str_in_true (s : string) (l : list string) : str_in s l = true ↔ s ∈ l.
Proof.
  unfold str_in. rewrite existsb_exists. split.
  - intros (x & Hx & Heq). apply str_eq_true in Heq as ->.
    by apply list_elem_of_In.
  - intros Hs. exists s. split; [by apply list_elem_of_In|by apply str_eq_true].
Qed.

(** ** The expansion *)

Lemma gen_build_list_elem (c : Conf) :
  c ∈ gen_build_list ↔
    in_tree (distro c) (compiler c) (language c)
    ∧ phase c ∈ PHASES
    ∧ (str_eq (phase c) "build" || negb (is_build_only c)) = true.
Proof.
  unfold gen_build_list, in_tree. rewrite list_elem_of_bind. split.
  - intros ([d d1] & Hc & Hd).
    apply list_elem_of_bind in Hc as ([comp langs] & Hc & Hcomp).
    apply list_elem_of_bind in Hc as (lang & Hc & Hlang).
    apply list_elem_of_bind in Hc as (ph & Hc & Hph).
    cbv zeta in Hc.
    destruct (str_eq ph "build" || negb (is_build_only _)) eqn:Hkeep;
      [|by apply elem_of_nil in Hc].
    apply list_elem_of_singleton in Hc as ->. simpl. eauto 10.
  - intros ((d1 & langs & Hd & Hcomp & Hlang) & Hph & Hkeep).
    exists (distro c, d1). split; [|done].
    apply list_elem_of_bind. exists (compiler c, langs). split; [|done].
    apply list_elem_of_bind. exists (language c). split; [|done].
    apply list_elem_of_bind. exists (phase c). split; [|done].
    cbv zeta. destruct c as [l d co p]; simpl in *. rewrite Hkeep.
    by apply list_elem_of_singleton.
Qed.

Lemma gen_build_list_NoDup : NoDup gen_build_list.
Proof. apply (bool_decide_unpack _). by vm_compute. Qed.

Lemma job_names_NoDup : NoDup (get_name <$> gen_build_list).
Proof. apply (bool_decide_unpack _). by vm_compute. Qed.

(** C1: any two records at different positions of the expansion have
    different job names, so job names are pairwise distinct over the whole
    generated set. *)
Theorem job_names_pairwise_distinct (i j : nat) (c1 c2 : Conf) :
  gen_build_list !! i = Some c1 →
  gen_build_list !! j = Some c2 →
  i ≠ j →
  get_name c1 ≠ get_name c2.
Proof.
  intros Hi Hj Hne Heq. apply Hne.
  apply (NoDup_lookup (get_name <$> gen_build_list) i j (get_name c1)).
  - apply job_names_NoDup.
  - by rewrite list_lookup_fmap, Hi.
  - by rewrite list_lookup_fmap, Hj, Heq.
Qed.

Lemma job_names_pairwise_distinct_witness :
  get_name (mkConf "py2" (Ver2 "ubuntu" "14.04") (Ver2 "gcc" "4.8") "build")
  ≠ get_name (mkConf "py2" (Ver2 "ubuntu" "14.04") (Ver2 "gcc" "4.8") "test").
Proof.
  apply (job_names_pairwise_distinct 0 1); [reflexivity|reflexivity|lia].
Defined.

Lemma is_build_only_spec (c : Conf) :
  is_build_only c = true ↔
    Ver_str (compiler c)
      ∈ ["gcc4.9"; "clang3.8"; "clang3.9"; "clang7"; "android"]
    ∨ get_platform c = "macos".
Proof.
  unfold is_build_only.
  by rewrite orb_true_iff, str_in_true, str_eq_true.
Qed.

Lemma get_platform_macos (c : Conf) :
  get_platform c = "macos" ↔ name (distro c) = "macos".
Proof.
  unfold get_platform. destruct (str_eq _ _) eqn:E.
  - by apply str_eq_true in E.
  - apply str_eq_false in E. split; [done|by intros ?].
Qed.

(** C2: the expansion holds each record at most once; a record is in it
    exactly when its (distribution, compiler, language) triple is in the
    static tree, its phase is one of the fixed phases, and it is not the
    case that the phase differs from "build" while the record is
    build-only.  A record is build-only exactly when its compiler
    identifier is one of gcc4.9, clang3.8, clang3.9, clang7, android, or
    its distribution is of the macos platform family. *)
Theorem gen_build_list_spec :
  NoDup gen_build_list
  ∧ (∀ c : Conf,
       c ∈ gen_build_list ↔
         in_tree (distro c) (compiler c) (language c)
         ∧ phase c ∈ PHASES
         ∧ ¬ (phase c ≠ "build" ∧ is_build_only c = true))
  ∧ (∀ c : Conf,
       is_build_only c = true ↔
         Ver_str (compiler c)
           ∈ ["gcc4.9"; "clang3.8"; "clang3.9"; "clang7"; "android"]
         ∨ get_platform c = "macos").
Proof.
  split; [apply gen_build_list_NoDup|]. split; [|apply is_build_only_spec].
  intros c. rewrite gen_build_list_elem.
  rewrite orb_true_iff, negb_true_iff, str_eq_true.
  destruct (decide (phase c = "build")) as [Hb|Hb];
    destruct (is_build_only c); intuition congruence.
Qed.

(** ** The job mapping *)

Section fold_insert.

Context {A V : Type} (f : A → string) (g : A → V).

Implicit Types (l : list A) (m : gmap string V) (k : string).

Lemma foldl_insert_notin l m k :
  k ∉ f <$> l →
  foldl (λ m a, <[f a := g a]> m) m l !! k = m !! k.
Proof.
  revert m. induction l as [|a l IH]; intros m Hk; [done|].
  rewrite fmap_cons, not_elem_of_cons in Hk. destruct Hk as [Hne Hk].
  simpl. rewrite IH by done. by rewrite lookup_insert_ne.
Qed.

Lemma foldl_insert_is_Some l m k :
  is_Some (m !! k) →
  is_Some (foldl (λ m a, <[f a := g a]> m) m l !! k).
Proof.
  revert m. induction l as [|a l IH]; intros m Hk; [done|].
  simpl. apply IH. rewrite lookup_insert_is_Some. 
  destruct (decide (f a = k)); auto.
Qed.

Lemma foldl_insert_elem l m a :
  NoDup (f <$> l) → a ∈ l →
  foldl (λ m a, <[f a := g a]> m) m l !! f a = Some (g a).
Proof.
  revert m. induction l as [|b l IH]; intros m Hnd Ha.
  - by apply elem_of_nil in Ha.
  - rewrite fmap_cons, NoDup_cons in Hnd. destruct Hnd as [Hb Hnd].
    apply elem_of_cons in Ha as [->|Ha]; simpl.
    + rewrite foldl_insert_notin by done. apply lookup_insert_eq.
    + by apply IH.
Qed.

End fold_insert.

Section jobs.

Variable override : string → list (string * string) → string.

Implicit Types (jobs : gmap string (odict yaml)) (c : Conf).

Lemma add_caffe2_builds_lookup jobs c :
  c ∈ gen_build_list →
  add_caffe2_builds override jobs !! get_name c
  = Some (gen_yaml_tree override c).
Proof.
  intros Hc. unfold add_caffe2_builds.
  apply (foldl_insert_elem get_name (gen_yaml_tree override));
    [apply job_names_NoDup|done].
Qed.

(** C10: the call keeps every key the mapping had, and leaves the value
    of every key that is not a generated job name as it was. *)
Theorem add_caffe2_builds_frame jobs :
  (∀ k : string,
     is_Some (jobs !! k) →
     is_Some (add_caffe2_builds override jobs !! k))
  ∧ (∀ k : string,
       k ∉ get_name <$> gen_build_list →
       add_caffe2_builds override jobs !! k = jobs !! k).
Proof.
  split; intros k Hk.
  - by apply foldl_insert_is_Some.
  - by apply foldl_insert_notin.
Qed.

End jobs.

(** ** The workflow list *)

Lemma filtered_configs_elem (c : Conf) :
  c ∈ filtered_configs ↔ c ∈ gen_build_list ∧ ¬ legacy_pair c.
Proof.
  unfold filtered_configs, legacy_pair.
  rewrite list_elem_of_In, List.filter_In, <- list_elem_of_In.
  rewrite negb_true_iff, andb_false_iff, !str_eq_false. 
  split; intros [Hc Hp]; (split; [done|]).
  - intros [??]. by destruct Hp.
  - destruct (decide (Ver_str (distro c) = "ubuntu14.04")); [|by left].
    right. intros ?. by apply Hp.
Qed.

Lemma legacy_pair_unique :
  Forall (λ c, legacy_pair c ↔ c = legacy_record) gen_build_list.
Proof. apply (bool_decide_unpack _). by vm_compute. Qed.

Lemma build_record_generated (c : Conf) :
  c ∈ gen_build_list →
  mkConf (language c) (distro c) (compiler c) "build" ∈ gen_build_list.
Proof.
  rewrite !gen_build_list_elem. intros (Ht & _ & _). simpl.
  split; [done|]. split; [|done]. apply list_elem_of_here.
Qed.

Lemma construct_phase_name_get_name (c : Conf) (p : string) :
  construct_phase_name c p
  = get_name (mkConf (language c) (distro c) (compiler c) p).
Proof. by destruct c. Qed.

Section workflows.

Variable override : string → list (string * string) → string.

Implicit Types (jobs : gmap string (odict yaml)) (c : Conf).

(** C3: the workflow entry of a record whose phase is "test" maps the
    record's job name to a requires list holding exactly the build-phase
    name of the same language, compiler and distribution; that name is
    the job name of a build-phase record of the expansion, and the job
    mapping holds that record's job definition under it. *)
Theorem workflow_test_entry_requires_build jobs (i : nat) c :
  filtered_configs !! i = Some c →
  phase c = "test" →
  get_caffe2_workflows !! i
  = Some (WRequires (get_name c) [construct_phase_name c "build"])
  ∧ ∃ b : Conf,
      b ∈ gen_build_list
      ∧ language b = language c ∧ distro b = distro c
      ∧ compiler b = compiler c ∧ phase b = "build"
      ∧ get_name b = construct_phase_name c "build"
      ∧ add_caffe2_builds override jobs !! construct_phase_name c "build"
        = Some (gen_yaml_tree override b).
Proof.
  intros Hi Hp. split.
  - unfold get_caffe2_workflows. rewrite list_lookup_fmap, Hi. simpl.
    by rewrite Hp.
  - apply list_elem_of_lookup_2, filtered_configs_elem in Hi as [Hc _].
    apply build_record_generated in Hc.
    exists (mkConf (language c) (distro c) (compiler c) "build").
    rewrite construct_phase_name_get_name.
    by rewrite add_caffe2_builds_lookup.
Qed.

(** C4, as the code has it: the workflow builder drops the records of
    one hard-coded combination, the distribution ubuntu14.04 (of the
    linux platform family) with the compiler gcc4.9.  The expansion has
    exactly one such record; no workflow entry stands for its job, and
    the job mapping still holds its job definition. *)
Theorem workflow_drops_legacy_pair jobs :
  (∀ c, c ∈ filtered_configs ↔ c ∈ gen_build_list ∧ ¬ legacy_pair c)
  ∧ Forall (λ c, legacy_pair c ↔ c = legacy_record) gen_build_list
  ∧ legacy_record ∈ gen_build_list
  ∧ get_platform legacy_record = "linux"
  ∧ length gen_build_list = S (length filtered_configs)
  ∧ (get_name legacy_record ∉ item_job <$> get_caffe2_workflows)
  ∧ add_caffe2_builds override jobs !! get_name legacy_record
    = Some (gen_yaml_tree override legacy_record).
Proof.
  split; [apply filtered_configs_elem|].
  split; [apply legacy_pair_unique|].
  assert (legacy_record ∈ gen_build_list) as Hr.
  { apply (bool_decide_unpack _). by vm_compute. }
  split; [done|]. split; [done|]. split; [done|].
  split; [|by apply add_caffe2_builds_lookup].
  apply (bool_decide_unpack _). by vm_compute.
Qed.

End workflows.

(** C4: the specification places the dropped combination in the desktop
    platform family.  The dropped record is of the linux family, and every
    record of the macos family keeps its workflow entry. *)
Lemma dropped_pair_is_not_desktop :
  legacy_record ∈ gen_build_list
  ∧ (legacy_record ∉ filtered_configs)
  ∧ get_platform legacy_record = "linux"
  ∧ Forall
      (λ c, get_platform c = "macos" →
            c ∈ filtered_configs
            ∧ WName (get_name c) ∈ get_caffe2_workflows)
      gen_build_list.
Proof.
  split; [apply (bool_decide_unpack _); by vm_compute|].
  split; [apply (bool_decide_unpack _); by vm_compute|].
  split; [done|].
  apply Forall_forall. intros c Hc Hm.
  assert (c ∈ filtered_configs) as Hf.
  { apply filtered_configs_elem. split; [done|]. intros [Hd _].
    apply get_platform_macos in Hm. unfold Ver_str in Hd.
    destruct (version (distro c)); rewrite Hm in Hd; discriminate. }
  split; [done|].
  unfold get_caffe2_workflows. apply list_elem_of_fmap.
  exists c. split; [|done]. simpl.
  apply gen_build_list_elem in Hc as (_ & Hph & Hk).
  destruct (str_eq (phase c) "test") eqn:Ht; [|done].
  apply str_eq_true in Ht. rewrite Ht in Hk. simpl in Hk.
  apply negb_true_iff in Hk.
  assert (is_build_only c = true) as Hb
    by (apply is_build_only_spec; by right).
  congruence.
Qed.

Lemma workflow_test_entry_requires_build_witness :
  let c := mkConf "py2" (Ver2 "ubuntu" "14.04") (Ver2 "gcc" "4.8") "test" in
  get_caffe2_workflows !! 1
  = Some (WRequires (get_name c) [construct_phase_name c "build"])
  ∧ ∃ b : Conf,
      b ∈ gen_build_list
      ∧ language b = language c ∧ distro b = distro c
      ∧ compiler b = compiler c ∧ phase b = "build"
      ∧ get_name b = construct_phase_name c "build"
      ∧ add_caffe2_builds override_lookup ∅
          !! construct_phase_name c "build"
        = Some (gen_yaml_tree override_lookup b).
Proof.
  apply (workflow_test_entry_requires_build override_lookup ∅ 1);
    reflexivity.
Defined.

(** ** Job names *)

Lemma replace_app (old new : ascii) (s t : string) :
  replace old new (s +:+ t) = replace old new s +:+ replace old new t.
Proof. induction s as [|a s IH]; simpl; [done|by rewrite IH]. Qed.

Lemma replace_join (old new : ascii) (sep : string) (l : list string) :
  replace old new (join sep l)
  = join (replace old new sep) (replace old new <$> l).
Proof.
  unfold join. induction l as [|x l IH]; [done|].
  destruct l as [|y l]; [done|].
  change (String.concat sep (x :: y :: l))
    with (x +:+ sep +:+ String.concat sep (y :: l)).
  rewrite !replace_app, IH. done.
Qed.

Lemma replace_fresh (old new : ascii) (s : string) :
  old ≠ new → old ∉ list_ascii_of_string (replace old new s).
Proof.
  intros Hne. induction s as [|a s IH]; simpl.
  - apply not_elem_of_nil.
  - apply not_elem_of_cons. split; [|done].
    destruct (Ascii.eqb a old) eqn:E; [done|].
    apply Ascii.eqb_neq in E. congruence.
Qed.

(** C5: the job name is the join with "_" of caffe2, the language, the
    compiler identity, the cudnn tag when the insertion rule gives one, the
    distribution identity and the phase, in this order, with every dot
    turned into an underscore; the same string is obtained by normalising
    each component and joining afterwards, and it holds no dot. *)
Theorem get_name_spec (c : Conf) :
  get_name c
  = replace "." "_"
      (join "_"
         (["caffe2"; language c; Ver_str (compiler c)]
          ++ get_cudnn_insertion c ++ [Ver_str (distro c); phase c]))
  ∧ get_name c
    = join "_"
        (replace "." "_"
         <$> ["caffe2"; language c; Ver_str (compiler c)]
             ++ get_cudnn_insertion c ++ [Ver_str (distro c); phase c])
  ∧ ("."%char ∉ list_ascii_of_string (get_name c)).
Proof.
  assert (get_name c
          = replace "." "_"
              (join "_"
                 (["caffe2"; language c; Ver_str (compiler c)]
                  ++ get_cudnn_insertion c
                  ++ [Ver_str (distro c); phase c]))) as Hn.
  { unfold get_name, construct_phase_name, get_build_name_root_parts,
      get_build_name_middle_parts.
    by rewrite <- !app_assoc. }
  split; [done|]. split.
  - rewrite Hn. apply (replace_join "." "_" "_").
  - rewrite Hn. by apply replace_fresh.
Qed.

(** ** The cudnn tag *)

Lemma cudnn_omit_spec (c : Conf) :
  cudnn_omit c = true ↔
    language c = "onnx_py2"
    ∨ name (compiler c) ∈ ["android"; "mkl"; "clang"]
    ∨ Ver_str (distro c) ∈ ["ubuntu14.04"; "macos10.13"].
Proof.
  unfold cudnn_omit.
  rewrite !orb_true_iff, !str_in_true, str_eq_true. tauto.
Qed.

Lemma pretty_DOCKER_IMAGE_VERSION : pretty DOCKER_IMAGE_VERSION = "248".
Proof. by vm_compute. Qed.

(** C6: the cudnn tag is left out exactly when the language is onnx_py2,
    or the compiler name is one of android, mkl, clang, or the distribution
    identity is ubuntu14.04 or macos10.13, and it is inserted otherwise.
    When inserted it stands between the compiler and the distribution in
    the name-middle parts; the job name and the docker image reference are
    both built from those parts, so this one predicate decides the tag in
    both. *)
Theorem cudnn_insertion_rule
    (override : string → list (string * string) → string) (c : Conf) :
  (cudnn_omit c = true ↔
     language c = "onnx_py2"
     ∨ name (compiler c) ∈ ["android"; "mkl"; "clang"]
     ∨ Ver_str (distro c) ∈ ["ubuntu14.04"; "macos10.13"])
  ∧ get_cudnn_insertion c = (if cudnn_omit c then [] else ["cudnn7"])
  ∧ get_build_name_middle_parts c
    = (if cudnn_omit c
       then [Ver_str (compiler c); Ver_str (distro c)]
       else [Ver_str (compiler c); "cudnn7"; Ver_str (distro c)])
  ∧ get_name c
    = replace "." "_"
        (join "_"
           (["caffe2"; language c]
            ++ (if cudnn_omit c
                then [Ver_str (compiler c); Ver_str (distro c)]
                else [Ver_str (compiler c); "cudnn7"; Ver_str (distro c)])
            ++ [phase c]))
  ∧ gen_docker_image override c
    = quote
        (DOCKER_IMAGE_PATH_BASE
         +:+ join "-"
               ([override (language c)
                   [("onnx_py2", "py2"); ("cmake", "py2")]]
                ++ (if cudnn_omit c
                    then [Ver_str (compiler c); Ver_str (distro c)]
                    else [Ver_str (compiler c); "cudnn7";
                          Ver_str (distro c)]))
         +:+ ":248").
Proof.
  assert (get_build_name_middle_parts c
          = (if cudnn_omit c
             then [Ver_str (compiler c); Ver_str (distro c)]
             else [Ver_str (compiler c); "cudnn7"; Ver_str (distro c)]))
    as Hmid.
  { unfold get_build_name_middle_parts, get_cudnn_insertion.
    by destruct (cudnn_omit c). }
  split; [apply cudnn_omit_spec|]. split; [done|]. split; [done|]. split.
  - rewrite <- Hmid.
    unfold get_name, construct_phase_name, get_build_name_root_parts.
    by rewrite <- !app_assoc.
  - rewrite <- Hmid. unfold gen_docker_image.
    by rewrite pretty_DOCKER_IMAGE_VERSION.
Qed.

(** ** Job definitions *)

Section job_definition.

Variable override : string → list (string * string) → string.

Implicit Types c : Conf.

(** Case analysis over the tests of [gen_yaml_tree], with the strings
    it assembles kept abstract. *)
Ltac env_cases c :=
  unfold env_dict, gen_yaml_tree;
  fold (build_env_string override c);
  generalize (build_env_string override c) as be;
  generalize (gen_docker_image override c) as di;
  generalize
    ("*" +:+ join "_" ["caffe2"; get_platform c; phase c; "defaults"])
    as anchor;
  intros anchor di be;
  destruct (str_eq (name (distro c)) "macos"),
    (str_eq (name (compiler c)) "ios"),
    (str_eq (phase c) "test"),
    (str_eq (name (compiler c)) "cuda"),
    (is_build_only c);
  reflexivity.

Lemma gen_yaml_tree_environment c :
  od_get "environment" (gen_yaml_tree override c)
  = Some (YDict (env_dict override c)).
Proof. env_cases c. Qed.

Lemma gen_yaml_tree_resource_class c :
  od_get "resource_class" (gen_yaml_tree override c)
  = if str_eq (phase c) "test"
    then Some (YStr (if negb (str_eq (name (compiler c)) "cuda")
                     then "large" else "gpu.medium"))
    else None.
Proof. env_cases c. Qed.

Lemma env_dict_BUILD_ENVIRONMENT c :
  od_get "BUILD_ENVIRONMENT" (env_dict override c)
  = Some (if negb (str_eq (name (distro c)) "macos")
          then quote (build_env_string override c) else build_env_string override c).
Proof. env_cases c. Qed.

Lemma env_dict_first_key c :
  head (od_keys (env_dict override c)) = Some "BUILD_ENVIRONMENT".
Proof. env_cases c. Qed.

Lemma env_dict_BUILD_IOS c :
  od_get "BUILD_IOS" (env_dict override c)
  = if str_eq (name (compiler c)) "ios" then Some (quote "1") else None.
Proof. env_cases c. Qed.

Lemma env_dict_USE_CUDA_DOCKER_RUNTIME c :
  od_get "USE_CUDA_DOCKER_RUNTIME" (env_dict override c)
  = if str_eq (phase c) "test" && str_eq (name (compiler c)) "cuda"
    then Some (quote "1") else None.
Proof. env_cases c. Qed.

Lemma env_dict_DOCKER_IMAGE c :
  od_get "DOCKER_IMAGE" (env_dict override c)
  = if str_eq (name (distro c)) "macos"
    then None else Some (gen_docker_image override c).
Proof. env_cases c. Qed.

Lemma env_dict_BUILD_ONLY c :
  od_get "BUILD_ONLY" (env_dict override c)
  = if is_build_only c && negb (str_eq (name (distro c)) "macos")
    then Some (quote "1") else None.
Proof. env_cases c. Qed.

Lemma env_dict_PYTHON_INSTALLATION c :
  od_get "PYTHON_INSTALLATION" (env_dict override c)
  = if str_eq (name (distro c)) "macos"
    then Some (quote "system") else None.
Proof. env_cases c. Qed.

Lemma env_dict_PYTHON_VERSION c :
  od_get "PYTHON_VERSION" (env_dict override c)
  = if str_eq (name (distro c)) "macos" then Some (quote "2") else None.
Proof. env_cases c. Qed.

Lemma is_Some_if {T} (b : bool) (x : T) :
  is_Some (if b then Some x else None) ↔ b = true.
Proof.
  destruct b; split; done || by intros [? ?].
Qed.

Lemma get_platform_not_macos c :
  get_platform c ≠ "macos" ↔ str_eq (name (distro c)) "macos" = false.
Proof. by rewrite get_platform_macos, str_eq_false. Qed.

(** C7: the environment mapping of the job definition always has
    BUILD_ENVIRONMENT; it has BUILD_IOS exactly for the ios compiler,
    USE_CUDA_DOCKER_RUNTIME exactly for phase "test" with the cuda
    compiler, DOCKER_IMAGE exactly off the macos platform, BUILD_ONLY
    exactly for build-only records off the macos platform, and
    PYTHON_INSTALLATION and PYTHON_VERSION, set to the quoted strings
    system and 2, exactly on the macos platform. *)
Theorem environment_entries c :
  od_get "environment" (gen_yaml_tree override c)
  = Some (YDict (env_dict override c))
  ∧ is_Some (od_get "BUILD_ENVIRONMENT" (env_dict override c))
  ∧ (is_Some (od_get "BUILD_IOS" (env_dict override c)) ↔
       name (compiler c) = "ios")
  ∧ (is_Some (od_get "USE_CUDA_DOCKER_RUNTIME" (env_dict override c)) ↔
       phase c = "test" ∧ name (compiler c) = "cuda")
  ∧ (is_Some (od_get "DOCKER_IMAGE" (env_dict override c)) ↔
       get_platform c ≠ "macos")
  ∧ (is_Some (od_get "BUILD_ONLY" (env_dict override c)) ↔
       is_build_only c = true ∧ get_platform c ≠ "macos")
  ∧ (is_Some (od_get "PYTHON_INSTALLATION" (env_dict override c)) ↔
       get_platform c = "macos")
  ∧ (is_Some (od_get "PYTHON_VERSION" (env_dict override c)) ↔
       get_platform c = "macos")
  ∧ (get_platform c = "macos" →
       od_get "PYTHON_INSTALLATION" (env_dict override c) = Some (quote "system")
       ∧ od_get "PYTHON_VERSION" (env_dict override c) = Some (quote "2")).
Proof.
  split; [apply gen_yaml_tree_environment|].
  split; [by rewrite env_dict_BUILD_ENVIRONMENT|].
  split.
  { by rewrite env_dict_BUILD_IOS, is_Some_if, str_eq_true. }
  split.
  { by rewrite env_dict_USE_CUDA_DOCKER_RUNTIME, is_Some_if,
      andb_true_iff, !str_eq_true. }
  split.
  { rewrite env_dict_DOCKER_IMAGE, get_platform_not_macos.
    destruct (str_eq _ _); split; done || by intros [? ?]. }
  split.
  { by rewrite env_dict_BUILD_ONLY, is_Some_if, andb_true_iff,
      negb_true_iff, get_platform_not_macos. }
  rewrite env_dict_PYTHON_INSTALLATION, env_dict_PYTHON_VERSION.
  rewrite !is_Some_if, get_platform_macos, str_eq_true.
  split; [done|]. split; [done|].
  intros Hm. apply str_eq_true in Hm. by rewrite Hm.
Qed.

(** C8: the job definition has a resource_class entry exactly when the
    phase is "test"; the entry is large when the compiler is not cuda
    and gpu.medium when it is. *)
Theorem resource_class_rule c :
  (is_Some (od_get "resource_class" (gen_yaml_tree override c)) ↔
     phase c = "test")
  ∧ (phase c = "test" ∧ name (compiler c) ≠ "cuda" →
       od_get "resource_class" (gen_yaml_tree override c)
       = Some (YStr "large"))
  ∧ (phase c = "test" ∧ name (compiler c) = "cuda" →
       od_get "resource_class" (gen_yaml_tree override c)
       = Some (YStr "gpu.medium")).
Proof.
  rewrite gen_yaml_tree_resource_class.
  destruct (str_eq (phase c) "test") eqn:Hp;
    destruct (str_eq (name (compiler c)) "cuda") eqn:Hc;
    rewrite ?str_eq_true, ?str_eq_false in Hp;
    rewrite ?str_eq_true, ?str_eq_false in Hc; simpl.
  all: split; [|split; intros [? ?]; congruence].
  all: split; [by intros [? ?] || done|].
  all: intros; first [congruence | by eexists].
Qed.

Lemma build_env_string_not_quoted c (s : string) :
  build_env_string override c ≠ quote s.
Proof.
  unfold build_env_string, get_build_name_middle_parts, join.
  simpl. discriminate.
Qed.

(** C9: BUILD_ENVIRONMENT is the first key of the environment mapping;
    its value is the assembled build-environment string wrapped in
    double quotes when the distribution is not macos, and the bare
    string, which is not of the quoted form, when it is. *)
Theorem build_environment_entry c :
  od_get "environment" (gen_yaml_tree override c)
  = Some (YDict (env_dict override c))
  ∧ head (od_keys (env_dict override c)) = Some "BUILD_ENVIRONMENT"
  ∧ ∃ v : string,
      od_get "BUILD_ENVIRONMENT" (env_dict override c) = Some v
      ∧ ((∃ s, v = quote s) ↔ name (distro c) ≠ "macos")
      ∧ (name (distro c) ≠ "macos" → v = quote (build_env_string override c))
      ∧ (name (distro c) = "macos" → v = build_env_string override c).
Proof.
  split; [apply gen_yaml_tree_environment|].
  split; [apply env_dict_first_key|].
  rewrite env_dict_BUILD_ENVIRONMENT.
  destruct (str_eq (name (distro c)) "macos") eqn:Hm;
    rewrite ?str_eq_true, ?str_eq_false in Hm; simpl.
  - exists (build_env_string override c). split; [done|]. split; [|done].
    split; [|done]. intros [s Hs]. by apply build_env_string_not_quoted in Hs.
  - exists (quote (build_env_string override c)). split; [done|]. split; [|done].
    split; [done|]. intros _. by eexists.
Qed.

End job_definition.

(** ** The generated configuration, evaluated *)

Example generated_job_names :
  get_name <$> gen_build_list
  = [ "caffe2_py2_gcc4_8_ubuntu14_04_build";
      "caffe2_py2_gcc4_8_ubuntu14_04_test";
      "caffe2_py2_gcc4_9_ubuntu14_04_build";
      "caffe2_py2_cuda8_0_cudnn7_ubuntu16_04_build";
      "caffe2_py2_cuda8_0_cudnn7_ubuntu16_04_test";
      "caffe2_py2_cuda9_0_cudnn7_ubuntu16_04_build";
      "caffe2_py2_cuda9_0_cudnn7_ubuntu16_04_test";
      "caffe2_cmake_cuda9_0_cudnn7_ubuntu16_04_build";
      "caffe2_cmake_cuda9_0_cudnn7_ubuntu16_04_test";
      "caffe2_py2_cuda9_1_cudnn7_ubuntu16_04_build";
      "caffe2_py2_cuda9_1_cudnn7_ubuntu16_04_test";
      "caffe2_py2_mkl_ubuntu16_04_build";
      "caffe2_py2_mkl_ubuntu16_04_test";
      "caffe2_onnx_py2_gcc5_ubuntu16_04_build";
      "caffe2_onnx_py2_gcc5_ubuntu16_04_test";
      "caffe2_py2_clang3_8_ubuntu16_04_build";
      "caffe2_py2_clang3_9_ubuntu16_04_build";
      "caffe2_py2_clang7_ubuntu16_04_build";
      "caffe2_py2_android_ubuntu16_04_build";
      "caffe2_py2_cuda9_0_cudnn7_centos7_build";
      "caffe2_py2_cuda9_0_cudnn7_centos7_test";
      "caffe2_py2_ios_macos10_13_build";
      "caffe2_py2_system_macos10_13_build" ].
Proof. reflexivity. Qed.

Example workflow_head :
  take 3 get_caffe2_workflows
  = [ WName "caffe2_py2_gcc4_8_ubuntu14_04_build";
      WRequires "caffe2_py2_gcc4_8_ubuntu14_04_test"
        ["caffe2_py2_gcc4_8_ubuntu14_04_build"];
      WName "caffe2_py2_cuda8_0_cudnn7_ubuntu16_04_build" ].
Proof. reflexivity. Qed.

Example job_definition_cuda_test :
  gen_yaml_tree override_lookup
    (mkConf "cmake" (Ver2 "ubuntu" "16.04") (Ver2 "cuda" "9.0") "test")
  = [ ("environment",
       YDict
         [ ("BUILD_ENVIRONMENT",
            quote "caffe2-cmake-cuda9.0-cudnn7-ubuntu16.04-test");
           ("USE_CUDA_DOCKER_RUNTIME", quote "1");
           ("DOCKER_IMAGE",
            quote ("308535385114.dkr.ecr.us-east-1.amazonaws.com/caffe2/"
                   +:+ "py2-cuda9.0-cudnn7-ubuntu16.04:248")) ]);
      ("resource_class", YStr "gpu.medium");
      ("<<", YStr "*caffe2_linux_test_defaults") ].
Proof. by vm_compute. Qed.

Example job_definition_ios_build :
  gen_yaml_tree override_lookup
    (mkConf "py2" (Ver2 "macos" "10.13") (Ver1 "ios") "build")
  = [ ("environment",
       YDict
         [ ("BUILD_ENVIRONMENT", "caffe2-py2-ios-macos10.13-build");
           ("BUILD_IOS", quote "1");
           ("PYTHON_INSTALLATION", quote "system");
           ("PYTHON_VERSION", quote "2") ]);
      ("<<", YStr "*caffe2_macos_build_defaults") ].
Proof. by vm_compute. Qed.

Example job_definition_android_build :
  env_dict override_lookup
    (mkConf "py2" (Ver2 "ubuntu" "16.04") (Ver1 "android") "build")
  = [ ("BUILD_ENVIRONMENT", quote "caffe2-py2-android-ubuntu16.04-build");
      ("DOCKER_IMAGE",
       quote ("308535385114.dkr.ecr.us-east-1.amazonaws.com/caffe2/"
              +:+ "py2-android-ubuntu16.04:248"));
      ("BUILD_ONLY", quote "1") ].
Proof. by vm_compute. Qed.

(** ** Further properties of the job definition *)

(** Case analysis over the tests of [gen_yaml_tree], the assembled
    strings kept abstract. *)
Ltac tree_cases override c :=
  unfold env_dict, gen_yaml_tree;
  generalize (gen_docker_image override c) as di;
  generalize
    (join "-"
       (["caffe2"; override (language c) [("onnx_py2", "onnx-py2")]]
        ++ get_build_name_middle_parts c ++ [phase c])) as be;
  intros be di;
  destruct (str_eq (name (distro c)) "macos") eqn:Hmacos,
    (str_eq (name (compiler c)) "ios") eqn:Hios,
    (str_eq (phase c) "test") eqn:Htest,
    (str_eq (name (compiler c)) "cuda") eqn:Hcuda,
    (is_build_only c) eqn:Hbo.

Section job_definition_layout.

Variable override : string → list (string * string) → string.

Implicit Types c : Conf.

(** X1: a job definition has the key environment first and the key of
    the inherited defaults last, with resource_class between them for
    phase "test" and nothing else: two or three keys, never a duplicate. *)
Theorem job_definition_keys c :
  od_keys (gen_yaml_tree override c)
  = ["environment"]
    ++ (if str_eq (phase c) "test" then ["resource_class"] else [])
    ++ ["<<"].
Proof. tree_cases override c; reflexivity. Qed.

(** X2: every job definition inherits the defaults anchor named after
    the platform and the phase, and the platform in it is macos for a
    distribution named macos and linux for every other one. *)
Theorem job_definition_anchor c :
  od_get "<<" (gen_yaml_tree override c)
  = Some (YStr ("*caffe2_" +:+ get_platform c +:+ "_" +:+ phase c
                +:+ "_defaults"))
  ∧ (name (distro c) = "macos" ∧ get_platform c = "macos"
     ∨ name (distro c) ≠ "macos" ∧ get_platform c = "linux").
Proof.
  split.
  - tree_cases override c; unfold get_platform; rewrite Hmacos;
      reflexivity.
  - unfold get_platform. destruct (str_eq _ _) eqn:E.
    + left. by apply str_eq_true in E.
    + right. by apply str_eq_false in E.
Qed.


(** X4: the job definition asks for the gpu.medium resource class
    exactly when its environment sets USE_CUDA_DOCKER_RUNTIME. *)
Theorem gpu_class_iff_cuda_runtime c :
  od_get "resource_class" (gen_yaml_tree override c)
  = Some (YStr "gpu.medium")
  ↔ is_Some (od_get "USE_CUDA_DOCKER_RUNTIME" (env_dict override c)).
Proof.
  rewrite gen_yaml_tree_resource_class, env_dict_USE_CUDA_DOCKER_RUNTIME.
  destruct (str_eq (phase c) "test"), (str_eq (name (compiler c)) "cuda");
    simpl; split; first [done | by intros [? ?] | by eexists].
Qed.

End job_definition_layout.

(** ** Further properties of job names *)

Lemma string_app_assoc (s t u : string) : (s +:+ t) +:+ u = s +:+ t +:+ u.
Proof.
  induction s as [|a s IH]; [done|].
  change (String a ((s +:+ t) +:+ u) = String a (s +:+ t +:+ u)).
  by rewrite IH.
Qed.

Lemma string_app_inv_head (s t u : string) : s +:+ t = s +:+ u → t = u.
Proof. induction s as [|a s IH]; simpl; [done|]. intros [=]. auto. Qed.

Lemma join_snoc (sep x : string) (l : list string) (p : string) :
  join sep ((x :: l) ++ [p]) = join sep (x :: l) +:+ sep +:+ p.
Proof.
  unfold join. revert x. induction l as [|y l IH]; intros x; [done|].
  change (String.concat sep ((x :: y :: l) ++ [p]))
    with (x +:+ sep +:+ String.concat sep ((y :: l) ++ [p])).
  change (String.concat sep (x :: y :: l))
    with (x +:+ sep +:+ String.concat sep (y :: l)).
  by rewrite IH, !string_app_assoc.
Qed.

Lemma construct_phase_name_root (c : Conf) (p : string) :
  construct_phase_name c p = name_root c +:+ "_" +:+ replace "." "_" p.
Proof.
  unfold construct_phase_name, name_root, get_build_name_root_parts.
  cbv zeta. change (["caffe2"; language c] ++ get_build_name_middle_parts c)
    with ("caffe2" :: ([language c] ++ get_build_name_middle_parts c)).
  by rewrite join_snoc, !replace_app.
Qed.

(** X5: the names [construct_phase_name] gives one record for two phases
    share the part built from the root parts and differ only in the
    normalised phase after the last separator: they are equal exactly when
    the two phases are equal up to dots, so the build name a test entry
    requires is never the name of the test job itself. *)
Theorem phase_names_share_root (c : Conf) :
  (∀ p : string,
     construct_phase_name c p
     = name_root c +:+ "_" +:+ replace "." "_" p)
  ∧ (∀ p q : string,
       construct_phase_name c p = construct_phase_name c q
       ↔ replace "." "_" p = replace "." "_" q)
  ∧ construct_phase_name c "build" ≠ construct_phase_name c "test".
Proof.
  assert (∀ p q : string,
            construct_phase_name c p = construct_phase_name c q
            ↔ replace "." "_" p = replace "." "_" q) as Hinj.
  { intros p q. rewrite !construct_phase_name_root. split.
    - intros H. by do 2 apply string_app_inv_head in H.
    - by intros ->. }
  split; [apply construct_phase_name_root|]. split; [done|].
  rewrite Hinj. discriminate.
Qed.

(** ** Job definitions of the generated records *)

Lemma is_build_only_test_sibling (c : Conf) :
  is_build_only (test_sibling c) = is_build_only c.
Proof. by destruct c. Qed.

Lemma test_sibling_generated (c : Conf) :
  c ∈ gen_build_list →
  test_sibling c ∈ gen_build_list ↔ is_build_only c = false.
Proof.
  rewrite !gen_build_list_elem. intros (Ht & _ & _).
  rewrite is_build_only_test_sibling. simpl.
  rewrite negb_true_iff. split; [by intros (_ & _ & ?)|].
  intros Hb. split; [done|]. split; [|done].
  apply list_elem_of_further, list_elem_of_here.
Qed.

Section generated_job_definitions.

Variable override : string → list (string * string) → string.

Implicit Types c : Conf.

(** X6: for a generated record of the linux platform, the environment
    sets BUILD_ONLY exactly when the expansion holds no test record of
    the same language, distribution and compiler. *)
Theorem build_only_flag_iff_no_test_job c :
  c ∈ gen_build_list →
  get_platform c = "linux" →
  is_Some (od_get "BUILD_ONLY" (env_dict override c))
  ↔ test_sibling c ∉ gen_build_list.
Proof.
  intros Hc Hp. rewrite (test_sibling_generated c Hc).
  rewrite env_dict_BUILD_ONLY, is_Some_if.
  assert (str_eq (name (distro c)) "macos" = false) as ->.
  { apply get_platform_not_macos. by rewrite Hp. }
  destruct (is_build_only c); simpl; split; congruence.
Qed.

(** X7: a generated record of phase "test" is of the linux platform;
    its job definition has a resource class, its environment has
    DOCKER_IMAGE, and it has none of BUILD_ONLY, PYTHON_INSTALLATION and
    PYTHON_VERSION. *)
Theorem generated_test_job_runs_in_docker c :
  c ∈ gen_build_list →
  phase c = "test" →
  get_platform c = "linux"
  ∧ is_Some (od_get "resource_class" (gen_yaml_tree override c))
  ∧ is_Some (od_get "DOCKER_IMAGE" (env_dict override c))
  ∧ od_get "BUILD_ONLY" (env_dict override c) = None
  ∧ od_get "PYTHON_INSTALLATION" (env_dict override c) = None
  ∧ od_get "PYTHON_VERSION" (env_dict override c) = None.
Proof.
  intros Hc Hp. apply gen_build_list_elem in Hc as (_ & _ & Hk).
  rewrite Hp in Hk. simpl in Hk. apply negb_true_iff in Hk.
  assert (str_eq (name (distro c)) "macos" = false) as Hm.
  { destruct (str_eq (name (distro c)) "macos") eqn:E; [|done].
    unfold is_build_only, get_platform in Hk. rewrite E in Hk.
    by rewrite orb_true_r in Hk. }
  rewrite gen_yaml_tree_resource_class, env_dict_DOCKER_IMAGE,
    env_dict_BUILD_ONLY, env_dict_PYTHON_INSTALLATION,
    env_dict_PYTHON_VERSION.
  unfold get_platform. rewrite Hm, Hk, Hp. simpl.
  repeat split; by eexists.
Qed.

End generated_job_definitions.

Lemma build_only_flag_iff_no_test_job_witness :
  is_Some
    (od_get "BUILD_ONLY"
       (env_dict override_lookup
          (mkConf "py2" (Ver2 "ubuntu" "16.04") (Ver2 "clang" "7") "build")))
  ↔ test_sibling
      (mkConf "py2" (Ver2 "ubuntu" "16.04") (Ver2 "clang" "7") "build")
    ∉ gen_build_list.
Proof.
  apply (build_only_flag_iff_no_test_job override_lookup);
    [apply (bool_decide_unpack _); vm_compute; reflexivity | reflexivity].
Defined.

Lemma generated_test_job_runs_in_docker_witness :
  let c := mkConf "py2" (Ver2 "centos" "7") (Ver2 "cuda" "9.0") "test" in
  get_platform c = "linux"
  ∧ is_Some (od_get "resource_class" (gen_yaml_tree override_lookup c))
  ∧ is_Some (od_get "DOCKER_IMAGE" (env_dict override_lookup c))
  ∧ od_get "BUILD_ONLY" (env_dict override_lookup c) = None
  ∧ od_get "PYTHON_INSTALLATION" (env_dict override_lookup c) = None
  ∧ od_get "PYTHON_VERSION" (env_dict override_lookup c) = None.
Proof.
  apply (generated_test_job_runs_in_docker override_lookup);
    [apply (bool_decide_unpack _); vm_compute; reflexivity | reflexivity].
Defined.

(** ** Further properties of the job mapping *)

Lemma foldl_insert_dom {A V : Type} (f : A → string) (g : A → V)
    (l : list A) (m : gmap string V) :
  dom (foldl (λ m a, <[f a := g a]> m) m l)
  = dom m ∪ list_to_set (f <$> l).
Proof.
  revert m. induction l as [|a l IH]; intros m; simpl.
  - by rewrite (right_id_L ∅ (∪)).
  - rewrite IH, dom_insert_L.
    by rewrite (comm_L (∪) {[f a]} (dom m)), <- (assoc_L (∪)).
Qed.

Lemma job_name_generated (k : string) :
  k ∈ get_name <$> gen_build_list ↔
    ∃ c : Conf, c ∈ gen_build_list ∧ k = get_name c.
Proof.
  rewrite list_elem_of_fmap. split; intros (c & H1 & H2); eauto.
Qed.

Section job_mapping.

Variable override : string → list (string * string) → string.

Implicit Types (jobs : gmap string (odict yaml)) (c : Conf).

(** X8: after the call the mapping holds, under the name of each
    generated record, the job definition of that record, whatever the
    mapping held under that name before. *)
Theorem add_caffe2_builds_overwrites jobs c :
  c ∈ gen_build_list →
  add_caffe2_builds override jobs !! get_name c
  = Some (gen_yaml_tree override c).
Proof. apply add_caffe2_builds_lookup. Qed.

(** X9: the result of the call is the mapping generated from an empty
    one laid over the mapping given, the generated entries taking
    precedence. *)
Theorem add_caffe2_builds_overlay jobs :
  add_caffe2_builds override jobs = add_caffe2_builds override ∅ ∪ jobs.
Proof.
  apply map_eq. intros k.
  destruct (decide (k ∈ get_name <$> gen_build_list)) as [Hk|Hk].
  - apply job_name_generated in Hk as (c & Hc & ->).
    rewrite lookup_union_l';
      by rewrite !add_caffe2_builds_lookup.
  - rewrite lookup_union_r.
    + by apply foldl_insert_notin.
    + unfold add_caffe2_builds.
      rewrite foldl_insert_notin by done. apply lookup_empty.
Qed.

(** X10: calling twice gives the same mapping as calling once. *)
Theorem add_caffe2_builds_idempotent jobs :
  add_caffe2_builds override (add_caffe2_builds override jobs)
  = add_caffe2_builds override jobs.
Proof.
  apply map_eq. intros k.
  destruct (decide (k ∈ get_name <$> gen_build_list)) as [Hk|Hk].
  - apply job_name_generated in Hk as (c & Hc & ->).
    by rewrite !add_caffe2_builds_lookup.
  - unfold add_caffe2_builds at 1. by rewrite foldl_insert_notin.
Qed.

(** X11: the keys after the call are the keys before it together with
    the generated job names, and a call on the empty mapping yields as
    many jobs as the expansion has records. *)
Theorem add_caffe2_builds_keys jobs :
  dom (add_caffe2_builds override jobs)
  = dom jobs ∪ list_to_set (get_name <$> gen_build_list)
  ∧ size (add_caffe2_builds override ∅) = length gen_build_list.
Proof.
  split; [apply foldl_insert_dom|].
  rewrite <- size_dom. unfold add_caffe2_builds. rewrite foldl_insert_dom.
  rewrite dom_empty_L, (left_id_L ∅ (∪)).
  rewrite size_list_to_set by apply job_names_NoDup.
  by rewrite length_fmap.
Qed.

End job_mapping.

Lemma add_caffe2_builds_overwrites_witness :
  add_caffe2_builds override_lookup
    {[ "caffe2_py2_mkl_ubuntu16_04_build" := [] ]}
    !! get_name (mkConf "py2" (Ver2 "ubuntu" "16.04") (Ver1 "mkl") "build")
  = Some
      (gen_yaml_tree override_lookup
         (mkConf "py2" (Ver2 "ubuntu" "16.04") (Ver1 "mkl") "build")).
Proof.
  apply (add_caffe2_builds_overwrites override_lookup).
  apply (bool_decide_unpack _). vm_compute. reflexivity.
Defined.

(** ** Further properties of the workflow list *)

Lemma List_filter_sublist {A} (f : A → bool) (l : list A) :
  List.filter f l `sublist_of` l.
Proof.
  induction l as [|a l IH]; simpl; [constructor|].
  destruct (f a); by constructor.
Qed.

Lemma workflow_item_job :
  item_job <$> get_caffe2_workflows = get_name <$> filtered_configs.
Proof.
  unfold get_caffe2_workflows. rewrite <- list_fmap_compose.
  apply list_fmap_ext. intros i c _. simpl.
  by destruct (str_eq (phase c) "test").
Qed.

Lemma follows_required_sound (prev : option workflow_item)
    (l : list workflow_item) :
  follows_required prev l = true →
  ∀ (i : nat) (job : string) (requires : list string),
    l !! i = Some (WRequires job requires) →
    ∃ b : string,
      requires = [b]
      ∧ match i with 0 => prev | S j => l !! j end = Some (WName b).
Proof.
  revert prev. induction l as [|w l IH]; intros prev Hok i job requires Hi.
  - by destruct i.
  - simpl in Hok. apply andb_true_iff in Hok as [Hw Hl].
    destruct i as [|i]; simpl in Hi.
    + injection Hi as ->.
      destruct prev as [[b|]|]; try discriminate.
      destruct requires as [|r [|]]; try discriminate.
      apply str_eq_true in Hw as ->. by exists b.
    + destruct (IH _ Hl i job requires Hi) as (b & -> & Hb).
      exists b. split; [done|]. by destruct i.
Qed.

(** X12: the job names of the workflow entries are, in order, the job
    names of the records that pass the filter; they form a subsequence of
    the generated job names in expansion order, and no job is listed
    twice. *)
Theorem workflow_jobs_in_expansion_order :
  item_job <$> get_caffe2_workflows = get_name <$> filtered_configs
  ∧ item_job <$> get_caffe2_workflows
    `sublist_of` get_name <$> gen_build_list
  ∧ NoDup (item_job <$> get_caffe2_workflows).
Proof.
  assert (item_job <$> get_caffe2_workflows
          `sublist_of` get_name <$> gen_build_list) as Hsub.
  { rewrite workflow_item_job. apply fmap_sublist.
    apply List_filter_sublist. }
  split; [apply workflow_item_job|]. split; [done|].
  eapply sublist_NoDup; [apply job_names_NoDup|done].
Qed.

(** X13: the entry of a record that passes the filter is the bare job
    name when the phase is "build" and the requiring mapping when it is
    "test"; no other phase occurs. *)
Theorem workflow_entry_by_phase (i : nat) (c : Conf) :
  filtered_configs !! i = Some c →
  phase c = "build"
  ∧ get_caffe2_workflows !! i = Some (WName (get_name c))
  ∨ phase c = "test"
    ∧ get_caffe2_workflows !! i
      = Some (WRequires (get_name c) [construct_phase_name c "build"]).
Proof.
  intros Hi. unfold get_caffe2_workflows. rewrite list_lookup_fmap, Hi.
  apply list_elem_of_lookup_2, filtered_configs_elem in Hi as [Hc _].
  apply gen_build_list_elem in Hc as (_ & Hp & _). simpl.
  apply elem_of_cons in Hp as [Hp|Hp]; [left|right].
  - by rewrite Hp.
  - apply list_elem_of_singleton in Hp. by rewrite Hp.
Qed.

Lemma workflow_entry_by_phase_witness :
  let c := mkConf "py2" (Ver2 "ubuntu" "14.04") (Ver2 "gcc" "4.8") "build" in
  phase c = "build"
  ∧ get_caffe2_workflows !! 0 = Some (WName (get_name c))
  ∨ phase c = "test"
    ∧ get_caffe2_workflows !! 0
      = Some (WRequires (get_name c) [construct_phase_name c "build"]).
Proof. apply (workflow_entry_by_phase 0). reflexivity. Defined.

(** X14: an entry of the workflow list that requires jobs requires
    exactly one, and the entry directly before it is the bare name of
    that job: every job is listed after the job it depends on. *)
Theorem workflow_requires_previous_entry (i : nat) (job : string)
    (requires : list string) :
  get_caffe2_workflows !! i = Some (WRequires job requires) →
  ∃ (j : nat) (b : string),
    i = S j ∧ requires = [b]
    ∧ get_caffe2_workflows !! j = Some (WName b).
Proof.
  intros Hi.
  assert (follows_required None get_caffe2_workflows = true) as Hok
    by (by vm_compute).
  destruct (follows_required_sound _ _ Hok i job requires Hi)
    as (b & -> & Hb).
  destruct i as [|j]; [done|]. by exists j, b.
Qed.

Lemma workflow_requires_previous_entry_witness :
  ∃ (j : nat) (b : string),
    1 = S j ∧ ["caffe2_py2_gcc4_8_ubuntu14_04_build"] = [b]
    ∧ get_caffe2_workflows !! j = Some (WName b).
Proof.
  apply (workflow_requires_previous_entry 1
           "caffe2_py2_gcc4_8_ubuntu14_04_test").
  reflexivity.
Defined.

(** X15: the jobs defined by a call on the empty mapping are the jobs
    listed in the workflow list together with the job of the one record
    the workflow filter drops. *)
Theorem defined_jobs_are_scheduled
    (override : string → list (string * string) → string) (k : string) :
  is_Some (add_caffe2_builds override ∅ !! k)
  ↔ k ∈ item_job <$> get_caffe2_workflows ∨ k = get_name legacy_record.
Proof.
  rewrite <- elem_of_dom. unfold add_caffe2_builds.
  rewrite foldl_insert_dom, dom_empty_L, (left_id_L ∅ (∪)).
  rewrite elem_of_list_to_set, workflow_item_job, job_name_generated.
  split.
  - intros (c & Hc & ->).
    destruct (decide (legacy_pair c)) as [Hl|Hl].
    + right. f_equal.
      by apply (proj1 (Forall_forall _ _) legacy_pair_unique c Hc).
    + left. apply list_elem_of_fmap_2. by apply filtered_configs_elem.
  - intros [Hk| ->].
    + apply list_elem_of_fmap in Hk as (c & -> & Hc).
      exists c. split; [|done]. by apply filtered_configs_elem in Hc as [? _].
    + exists legacy_record. split; [|done].
      apply (bool_decide_unpack _). by vm_compute.
Qed.
